(** * healtcheck_VMware.py: inventory filter, metric collector and rankings

    A shallow embedding of [src/healtcheck_VMware.py].  The script prompts
    for connection data, opens a vCenter session, lists the virtual
    machines, keeps the powered-on ones that are not vCLS agents, reads
    five figures from each machine's summary and ranks the machines by
    each figure (top 10, descending).

    Python objects are modelled as follows.
    - [str] is [string]; a name is the byte string the API returned.
    - a pyVmomi data object read with [getattr(obj, attr, default)] is a
      finite map from attribute names to values ([gmap string Z]): the
      attribute is either there or not.
    - a [dict] with string keys is a [gmap string pyval].
    - [print], [input] and exceptions are threaded through a small
      output-and-error monad. *)

From Stdlib Require Import Ascii.
From stdpp Require Import gmap strings list sorting pretty.

Open Scope string_scope.
Open Scope Z_scope.

(** ** Python strings *)

Module PyStr.

(** [str.lower] on one character.  Only 'A'..'Z' change: every other
    byte, a byte of a multi-byte UTF-8 sequence included, stays. *)
Definition lower_ascii (c : ascii) : ascii :=
  let n := nat_of_ascii c in
  if ((65 <=? n)%nat && (n <=? 90)%nat)%bool then ascii_of_nat (n + 32) else c.

(** [s.lower()] *)
Fixpoint lower (s : string) : string :=
  match s with
  | EmptyString => EmptyString
  | String c s' => String (lower_ascii c) (lower s')
  end.

(** [s.startswith(p)] *)
Fixpoint startswith (s p : string) {struct p} : bool :=
  match p with
  | EmptyString => true
  | String b p' =>
      match s with
      | EmptyString => false
      | String a s' => if Ascii.eqb a b then startswith s' p' else false
      end
  end.

End PyStr.

(** ** Machine objects, as the script reads them *)

(** An object whose attributes are looked up by name. *)
Abbreviation pyobj := (gmap string Z).

(** [vm.runtime] *)
Record RuntimeInfo := { powerState : string }.

(** [vm.summary]: the script reads [quickStats] and [config] from it. *)
Record Summary := { quickStats : pyobj; config : pyobj }.

(** [vim.VirtualMachine], restricted to what the script touches. *)
Record VirtualMachine := {
  name : string;
  runtime : RuntimeInfo;
  summary : Summary
}.

(** [getattr(obj, attr, default)] *)
Definition getattr (obj : pyobj) (attr : string) (default : Z) : Z :=
  match obj !! attr with
  | Some v => v
  | None => default
  end.

(** ** filtrar_vms *)

(** The condition of the comprehension in [filtrar_vms]:
    [vm.runtime.powerState == 'poweredOn' and
     not vm.name.lower().startswith('vcls')]. *)
Definition vm_retenida (vm : VirtualMachine) : bool :=
  String.eqb (powerState (runtime vm)) "poweredOn"
  && negb (PyStr.startswith (PyStr.lower (name vm)) "vcls").

(** [[vm for vm in vms if ...]] *)
Fixpoint filtrar_vms (vms : list VirtualMachine) : list VirtualMachine :=
  match vms with
  | [] => []
  | vm :: vms' =>
      if vm_retenida vm then vm :: filtrar_vms vms' else filtrar_vms vms'
  end.

(** ** recolectar_metricas *)

(** The values the script stores in a [stats] dict: the machine's name
    and integers. *)
Inductive pyval :=
  | PStr (s : string)
  | PInt (z : Z).

Global Instance pyval_eq_dec : EqDecision pyval.
Proof. solve_decision. Defined.

(** A [dict] with string keys. *)
Abbreviation dict := (gmap string pyval).

(** [stats = {}] followed by six item assignments, in the order of the
    source. *)
Definition recolectar_metricas (vm : VirtualMachine) : dict :=
  let summary := vm.(summary) in
  let stats : dict := ∅ in
  let stats := <["name" := PStr vm.(name)]> stats in
  let stats :=
    <["cpu_ready" := PInt (getattr summary.(quickStats) "overallCpuLatency" 0)]> stats in
  let stats :=
    <["ram_asignada" := PInt (getattr summary.(config) "memorySizeMB" 0)]> stats in
  let stats :=
    <["ram_consumida" := PInt (getattr summary.(quickStats) "guestMemoryUsage" 0)]> stats in
  let stats :=
    <["net_usage" := PInt (getattr summary.(quickStats) "overallNetworkUsage" 0)]> stats in
  let stats :=
    <["iops" := PInt (getattr summary.(quickStats) "overallDiskUsage" 0)]> stats in
  stats.

(** ** The pandas calls the script makes *)

(** Exceptions that reach the top level of the script. *)
Inductive exn :=
  | KeyError (key : string)
  | TypeError
  | EOFError
  | VimFault (msg : string).

(** A frame built from a list of dicts: its column labels and its rows,
    top to bottom.  Row labels (the index) are not modelled; the script
    never reads them. *)
Record DataFrame := {
  columns : gset string;
  rows : list dict
}.

(** [pd.DataFrame(data)] for a list of dicts: the columns are the keys
    that occur in some dict, so an empty list gives a frame without
    columns. *)
Definition pd_DataFrame (data : list dict) : DataFrame :=
  {| columns := ⋃ (dom <$> data); rows := data |}.

(** The cells of column [col] when each of them is an integer. *)
Fixpoint column_ints (col : string) (rs : list dict) : option (list Z) :=
  match rs with
  | [] => Some []
  | r :: rs' =>
      match r !! col, column_ints col rs' with
      | Some (PInt z), Some zs => Some (z :: zs)
      | _, _ => None
      end
  end.

(** Order of the (key, row) pairs in a descending sort. *)
Definition key_ge (p q : Z * dict) : Prop := q.1 ≤ p.1.

Global Instance key_ge_dec p q : Decision (key_ge p q).
Proof. unfold key_ge. apply _. Defined.

(** [df.sort_values(col, ascending=False)].  pandas looks the label up
    (KeyError when no column has it), orders the positions by the
    column's values and takes the rows in that order.  Only integer
    columns are modelled, the ones the script sorts by; any other
    content is reported as [TypeError].  Which of two rows with equal
    keys comes first is left open by pandas' default sort and no result
    below depends on it. *)
Definition sort_values (df : DataFrame) (col : string) : exn + DataFrame :=
  if decide (col ∈ columns df) then
    match column_ints col (rows df) with
    | Some keys =>
        inr {| columns := columns df;
               rows := (merge_sort key_ge (zip keys (rows df))).*2 |}
    | None => inl TypeError
    end
  else inl (KeyError col).

(** [df.head(n)] *)
Definition head (n : nat) (df : DataFrame) : DataFrame :=
  {| columns := columns df; rows := take n (rows df) |}.

(** ** The process: streams, exit handlers, files *)

(** What [get_all_vms] obtains from the endpoint: the machines a
    recursive container view over the root folder lists. *)
Record ServiceContent := { vm_view : list VirtualMachine }.

(** The session handle returned by [SmartConnect]. *)
Record ServiceInstance := { RetrieveContent : exn + ServiceContent }.

(** Callables handed to [atexit.register]. *)
Inductive callback :=
  | Disconnect (si : ServiceInstance).

Record World := {
  stdin : list string;            (* lines still to be read *)
  stdout : list string;           (* what was written, oldest first *)
  atexit_handlers : list callback;
  files : gmap string string      (* file name to content *)
}.

(** A computation reads and writes the world and ends with a value or
    with an exception. *)
Definition M (A : Type) : Type := World → World * (exn + A).

Global Instance M_ret : MRet M := λ A (a : A) w, (w, inr a).

Global Instance M_bind : MBind M := λ A B (f : A → M B) (m : M A) w,
  match m w with
  | (w', inr a) => f a w'
  | (w', inl e) => (w', inl e)
  end.

(** An exception or a value of a pure call, inside [M]. *)
Definition lift {A} (r : exn + A) : M A := λ w, (w, r).

Definition write_stdout (s : string) : M unit := λ w,
  ({| stdin := stdin w; stdout := stdout w ++ [s];
      atexit_handlers := atexit_handlers w; files := files w |}, inr ()).

Definition read_line : M string := λ w,
  match stdin w with
  | [] => (w, inl EOFError)
  | l :: ls =>
      ({| stdin := ls; stdout := stdout w;
          atexit_handlers := atexit_handlers w; files := files w |}, inr l)
  end.

Definition newline : string := String (ascii_of_nat 10) EmptyString.

(** [print(s)] *)
Definition print (s : string) : M unit := write_stdout (s +:+ newline).

(** [input(prompt)]: the prompt is written, then a line is read.  The
    prompt is put on standard output here; with both streams on a
    terminal and no readline CPython shows it on the error stream
    instead, so the numbered properties below say nothing about where a
    prompt appears. *)
Definition input (prompt : string) : M string :=
  _ ← write_stdout prompt; read_line.

(** [getpass.getpass(prompt)]: the prompt goes to the terminal, not to
    standard output. *)
Definition getpass : M string := read_line.

(** [atexit.register(f)] *)
Definition atexit_register (f : callback) : M unit := λ w,
  ({| stdin := stdin w; stdout := stdout w;
      atexit_handlers := atexit_handlers w ++ [f]; files := files w |}, inr ()).

(** ** get_all_vms and main *)

(** The container view is created, read and destroyed; the result is the
    list it held.  [content] stands for a view that was obtained: a
    fault in one of the three calls, or in reading a machine's
    properties, is not modelled. *)
Definition get_all_vms (content : ServiceContent) : list VirtualMachine :=
  vm_view content.

(** [main] returns nothing; the model returns its local variables so
    that they can be talked about. *)
Record Locals := {
  vms_filtradas : list VirtualMachine;
  metricas : list dict;
  top_cpu : DataFrame;
  top_ram_asignada : DataFrame;
  top_ram_consumida : DataFrame;
  top_net : DataFrame;
  top_iops : DataFrame
}.

(** [df.sort_values(by, ascending=False).head(10)] *)
Definition top10 (df : DataFrame) (col : string) : M DataFrame :=
  sorted ← lift (sort_values df col); mret (head 10 sorted).

(** [main()], with the global [content] as its argument. *)
Definition main (content : ServiceContent) : M Locals :=
  let vms := get_all_vms content in
  let vms_filtradas := filtrar_vms vms in
  _ ← print ("Se encontraron " +:+ pretty (length vms_filtradas)
              +:+ " VMs encendidas (sin vcls)");
  let metricas := recolectar_metricas <$> vms_filtradas in
  let df := pd_DataFrame metricas in
  top_cpu ← top10 df "cpu_ready";
  top_ram_asignada ← top10 df "ram_asignada";
  top_ram_consumida ← top10 df "ram_consumida";
  top_net ← top10 df "net_usage";
  top_iops ← top10 df "iops";
  mret {| vms_filtradas := vms_filtradas; metricas := metricas;
          top_cpu := top_cpu; top_ram_asignada := top_ram_asignada;
          top_ram_consumida := top_ram_consumida; top_net := top_net;
          top_iops := top_iops |}.

(** ** The script, top to bottom *)

Section Script.

(** The endpoint: what [SmartConnect(host, user, pwd, sslContext)]
    answers.  The SSL context is always the unverified one. *)
Variable SmartConnect : string → string → string → exn + ServiceInstance.

Definition script : M Locals :=
  VCENTER_HOST ← input "vCenter/ESXi host: ";
  VCENTER_USER ← input "Usuario: ";
  VCENTER_PASSWORD ← getpass;
  REPORTE_HTML ←
    input "Nombre del archivo HTML para el reporte (ej: reporte_vmware.html): ";
  si ← lift (SmartConnect VCENTER_HOST VCENTER_USER VCENTER_PASSWORD);
  _ ← atexit_register (Disconnect si);
  content ← lift (RetrieveContent si);
  main content.

End Script.

(** ** The five metrics *)

(** The rows of the table below are lines 48 to 55 of the source: the
    key written into [stats], the sub-object of the summary that is
    read, and the attribute asked of it. *)
Inductive metric := CpuReady | RamAsignada | RamConsumida | NetUsage | Iops.

Definition clave (m : metric) : string :=
  match m with
  | CpuReady => "cpu_ready"
  | RamAsignada => "ram_asignada"
  | RamConsumida => "ram_consumida"
  | NetUsage => "net_usage"
  | Iops => "iops"
  end.

Definition origen (m : metric) (s : Summary) : pyobj :=
  match m with
  | RamAsignada => config s
  | _ => quickStats s
  end.

Definition atributo (m : metric) : string :=
  match m with
  | CpuReady => "overallCpuLatency"
  | RamAsignada => "memorySizeMB"
  | RamConsumida => "guestMemoryUsage"
  | NetUsage => "overallNetworkUsage"
  | Iops => "overallDiskUsage"
  end.

(** The local of [main] that holds the ranking of a metric. *)
Definition ranking (m : metric) (loc : Locals) : DataFrame :=
  match m with
  | CpuReady => top_cpu loc
  | RamAsignada => top_ram_asignada loc
  | RamConsumida => top_ram_consumida loc
  | NetUsage => top_net loc
  | Iops => top_iops loc
  end.

(** Two rows in descending order of an integer column. *)
Definition desc (col : string) (r1 r2 : dict) : Prop :=
  ∃ z1 z2, r1 !! col = Some (PInt z1) ∧ r2 !! col = Some (PInt z2) ∧ z2 ≤ z1.

(** ** The inventory of the worked example *)

Definition maquina (n p : string) (qs : pyobj) : VirtualMachine :=
  {| name := n;
     runtime := {| powerState := p |};
     summary := {| quickStats := qs; config := ∅ |} |}.

Definition vcls1 := maquina "vCLS-1" "poweredOn" ∅.
Definition web01 := maquina "Web01" "poweredOn" {[ "overallCpuLatency" := 50 ]}.
Definition web02 := maquina "Web02" "poweredOff" {[ "overallCpuLatency" := 90 ]}.
Definition db01 := maquina "DB01" "poweredOn" {[ "overallCpuLatency" := 10 ]}.

Definition inventario_ejemplo : list VirtualMachine :=
  [vcls1; web01; web02; db01].

(** A fresh process: nothing read, nothing written. *)
Definition mundo (entrada : list string) : World :=
  {| stdin := entrada; stdout := []; atexit_handlers := []; files := ∅ |}.

(** The line [main] prints. *)
Definition linea_encontradas (n : nat) : string :=
  ("Se encontraron " +:+ pretty n +:+ " VMs encendidas (sin vcls)") +:+ newline.

(** The world after [main] has printed its line. *)
Definition tras_print (n : nat) (w : World) : World :=
  {| stdin := stdin w; stdout := stdout w ++ [linea_encontradas n];
     atexit_handlers := atexit_handlers w; files := files w |}.

(** A computation that leaves one component of the world (its files,
    its exit handlers) as it was. *)
Definition keeps {A B} (part : World → B) (m : M A) : Prop :=
  ∀ w, part (m w).1 = part w.

(** The world in which the script starts with the four answers typed
    at its prompts. *)
Definition mundo_inicial (host user pwd reporte : string) (resto out : list string)
    (hs : list callback) (fs : gmap string string) : World :=
  {| stdin := host :: user :: pwd :: reporte :: resto; stdout := out;
     atexit_handlers := hs; files := fs |}.

(** The prompts that go to standard output, in the order of the
    source. *)
Definition prompts : list string :=
  ["vCenter/ESXi host: "; "Usuario: ";
   "Nombre del archivo HTML para el reporte (ej: reporte_vmware.html): "].

(** Two cells of an integer column in descending order. *)
Definition cell_desc (c1 c2 : option pyval) : Prop :=
  ∃ z1 z2, c1 = Some (PInt z1) ∧ c2 = Some (PInt z2) ∧ z2 ≤ z1.

(** What the condition of the filter asks of a machine, and its
    contrary. *)
Definition encendida_sin_vcls (vm : VirtualMachine) : Prop :=
  powerState (runtime vm) = "poweredOn"
  ∧ ¬ ∃ t, PyStr.lower (name vm) = "vcls" +:+ t.

Definition apagada_o_vcls (vm : VirtualMachine) : Prop :=
  powerState (runtime vm) ≠ "poweredOn"
  ∨ ∃ t, PyStr.lower (name vm) = "vcls" +:+ t.

(** The world once the four prompts have been answered. *)
Definition tras_prompts (resto out : list string) (hs : list callback)
    (fs : gmap string string) : World :=
  {| stdin := resto; stdout := out ++ prompts;
     atexit_handlers := hs; files := fs |}.

(** An endpoint for examples: it serves the example inventory to
    whoever knows the password. *)
Definition si_ejemplo : ServiceInstance :=
  {| RetrieveContent := inr {| vm_view := inventario_ejemplo |} |}.

Definition endpoint_ejemplo (host user pwd : string) : exn + ServiceInstance :=
  if String.eqb pwd "secreto" then inr si_ejemplo
  else inl (VimFault "login").

(** * Properties *)

(** ** Strings *)

Lemma startswith_spec s p :
  PyStr.startswith s p = true ↔ ∃ t, s = p +:+ t.
Proof.
  revert s. induction p as [|b p IH]; intros s; simpl.
  - split; [intros _; exists s; reflexivity | reflexivity].
  - destruct s as [|a s].
    + split; [discriminate | intros [t Ht]; discriminate].
    + destruct (Ascii.eqb a b) eqn:E.
      * apply Ascii.eqb_eq in E as ->. rewrite IH.
        split; intros [t Ht]; exists t.
        -- change (String b s = String b (p +:+ t)). by rewrite Ht.
        -- change (String b s = String b (p +:+ t)) in Ht. congruence.
      * apply Ascii.eqb_neq in E.
        split; [discriminate | intros [t Ht]].
        change (String a s = String b (p +:+ t)) in Ht. congruence.
Qed.

Lemma startswith_false s p :
  PyStr.startswith s p = false ↔ ¬ ∃ t, s = p +:+ t.
Proof.
  rewrite <-startswith_spec. destruct (PyStr.startswith s p); naive_solver.
Qed.

Example lower_vcls : PyStr.lower "vCLS-1" = "vcls-1".
Proof. reflexivity. Qed.

Example lower_keeps_digits : PyStr.lower "Web01 [Z@`{" = "web01 [z@`{".
Proof. reflexivity. Qed.

(** ** The filter *)

Lemma vm_retenida_spec vm :
  vm_retenida vm = true ↔
    powerState (runtime vm) = "poweredOn"
    ∧ ¬ ∃ t, PyStr.lower (name vm) = "vcls" +:+ t.
Proof.
  unfold vm_retenida.
  rewrite andb_true_iff, negb_true_iff, String.eqb_eq, startswith_false.
  done.
Qed.

Lemma elem_of_filtrar_vms vm vms :
  vm ∈ filtrar_vms vms ↔ vm ∈ vms ∧ vm_retenida vm = true.
Proof.
  induction vms as [|v vms IH]; simpl.
  - rewrite elem_of_nil. tauto.
  - destruct (vm_retenida v) eqn:E; rewrite ?elem_of_cons, IH.
    + split; [intros [->|[? ?]]; auto | intros [[->|?] ?]; auto].
    + split; [intros [? ?]; auto | intros [[->|?] ?]; [congruence | auto]].
Qed.

(** C1: the filter keeps a machine exactly when its power state is
    "poweredOn" and its lower-cased name does not start with "vcls"; a
    machine in any other power state is dropped, and so is a machine
    whose lower-cased name starts with "vcls", whatever its power
    state. *)
Theorem filtrar_vms_retains (vms : list VirtualMachine) :
  (∀ vm, vm ∈ filtrar_vms vms ↔
      vm ∈ vms
      ∧ powerState (runtime vm) = "poweredOn"
      ∧ ¬ ∃ t, PyStr.lower (name vm) = "vcls" +:+ t)
  ∧ (∀ vm, powerState (runtime vm) ≠ "poweredOn" → vm ∉ filtrar_vms vms)
  ∧ (∀ vm, (∃ t, PyStr.lower (name vm) = "vcls" +:+ t) →
       vm ∉ filtrar_vms vms).
Proof.
  assert (∀ vm, vm ∈ filtrar_vms vms ↔
      vm ∈ vms
      ∧ powerState (runtime vm) = "poweredOn"
      ∧ ¬ ∃ t, PyStr.lower (name vm) = "vcls" +:+ t) as H.
  { intros vm. by rewrite elem_of_filtrar_vms, vm_retenida_spec. }
  split; [exact H|]. split; intros vm Hvm Hin; apply H in Hin; tauto.
Qed.

(** C6: the output of the filter is a sublist of its input: some
    machines are left out, the others keep their relative order.  It
    may be empty. *)
Theorem filtrar_vms_sublist (vms : list VirtualMachine) :
  filtrar_vms vms `sublist_of` vms.
Proof.
  induction vms as [|vm vms IH]; simpl.
  - constructor.
  - destruct (vm_retenida vm); by constructor.
Qed.

Lemma filtrar_vms_all_retained vms :
  Forall (λ vm, vm_retenida vm = true) (filtrar_vms vms).
Proof.
  induction vms as [|vm vms IH]; simpl; [constructor|].
  destruct (vm_retenida vm) eqn:E; [by constructor | done].
Qed.

Lemma filtrar_vms_fixed vms :
  Forall (λ vm, vm_retenida vm = true) vms → filtrar_vms vms = vms.
Proof.
  induction 1 as [|vm vms Hvm _ IH]; simpl; [done|].
  by rewrite Hvm, IH.
Qed.

(** C9: filtering twice is the same as filtering once. *)
Theorem filtrar_vms_idempotent (vms : list VirtualMachine) :
  filtrar_vms (filtrar_vms vms) = filtrar_vms vms.
Proof. apply filtrar_vms_fixed, filtrar_vms_all_retained. Qed.

(** ** The collector *)

Lemma getattr_default (obj : pyobj) attr d :
  getattr obj attr d = default d (obj !! attr).
Proof. unfold getattr. by destruct (obj !! attr). Qed.

Lemma recolectar_metricas_name vm :
  recolectar_metricas vm !! "name" = Some (PStr (name vm)).
Proof. unfold recolectar_metricas. by simplify_map_eq. Qed.

Lemma recolectar_metricas_metric vm m :
  recolectar_metricas vm !! clave m
  = Some (PInt (getattr (origen m (summary vm)) (atributo m) 0)).
Proof. unfold recolectar_metricas. destruct m; by simplify_map_eq. Qed.

Lemma recolectar_metricas_dom vm :
  dom (recolectar_metricas vm)
  = {[ "name"; "cpu_ready"; "ram_asignada"; "ram_consumida";
       "net_usage"; "iops" ]}.
Proof.
  unfold recolectar_metricas. rewrite !dom_insert_L, dom_empty_L.
  set_solver.
Qed.

(** C3: for every machine the collector returns a dict (the function is
    total: no attribute that is absent makes it fail) with exactly six
    keys, the name and the five metrics; a metric whose attribute is
    present carries the attribute's value as it is, and a metric whose
    attribute is absent is 0. *)
Theorem recolectar_metricas_record (vm : VirtualMachine) :
  dom (recolectar_metricas vm)
  = {[ "name"; "cpu_ready"; "ram_asignada"; "ram_consumida";
       "net_usage"; "iops" ]}
  ∧ size (recolectar_metricas vm) = 6%nat
  ∧ recolectar_metricas vm !! "name" = Some (PStr (name vm))
  ∧ ∀ m : metric,
      match origen m (summary vm) !! atributo m with
      | Some raw => recolectar_metricas vm !! clave m = Some (PInt raw)
      | None => recolectar_metricas vm !! clave m = Some (PInt 0)
      end.
Proof.
  split; [apply recolectar_metricas_dom|].
  split.
  { rewrite <-size_dom, recolectar_metricas_dom. by vm_compute. }
  split; [apply recolectar_metricas_name|].
  intros m. rewrite recolectar_metricas_metric, getattr_default.
  by destruct (origen m (summary vm) !! atributo m).
Qed.

(** ** Sorting a frame by an integer column *)

Global Instance key_ge_trans : Transitive key_ge.
Proof. unfold key_ge. intros p q r ? ?. lia. Qed.

Global Instance key_ge_total : Total key_ge.
Proof. unfold key_ge. intros p q. lia. Qed.

Lemma column_ints_Some col rs zs :
  column_ints col rs = Some zs →
  Forall2 (λ z r, r !! col = Some (PInt z)) zs rs.
Proof.
  revert zs. induction rs as [|r rs IH]; simpl; intros zs Hzs.
  - injection Hzs as <-. constructor.
  - destruct (r !! col) as [[s|z]|] eqn:Hr; try discriminate.
    destruct (column_ints col rs) as [zs'|]; [|discriminate].
    injection Hzs as <-. constructor; auto.
Qed.

Lemma zip_keyed col zs rs :
  Forall2 (λ z r, r !! col = Some (PInt z)) zs rs →
  Forall (λ p : Z * dict, p.2 !! col = Some (PInt p.1)) (zip zs rs).
Proof. induction 1; simpl; constructor; auto. Qed.

Lemma StronglySorted_take {A} (R : relation A) l n :
  StronglySorted R l → StronglySorted R (take n l).
Proof.
  intros H. revert n. induction H as [|x l _ IH Hx]; intros [|n]; simpl;
    try constructor; auto using Forall_take.
Qed.

Lemma StronglySorted_keyed col (ps : list (Z * dict)) :
  Forall (λ p, p.2 !! col = Some (PInt p.1)) ps →
  StronglySorted key_ge ps →
  StronglySorted (desc col) ps.*2.
Proof.
  intros Hps Hs. induction Hs as [|p ps _ IH Hp]; simpl; [constructor|].
  apply Forall_cons in Hps as [Hp1 Hps]. constructor; [auto|].
  apply Forall_fmap, Forall_forall. intros q Hq. simpl.
  rewrite Forall_forall in Hp, Hps.
  exists p.1, q.1. split_and!; [done | by apply Hps | by apply Hp].
Qed.

(** Sorting by an existing integer column succeeds; the rows of the
    result are those of the frame, rearranged in descending order. *)
Lemma sort_values_int df col keys :
  col ∈ columns df →
  column_ints col (rows df) = Some keys →
  ∃ sorted,
    sort_values df col = inr sorted
    ∧ rows sorted ≡ₚ rows df
    ∧ StronglySorted (desc col) (rows sorted).
Proof.
  intros Hcol Hkeys. unfold sort_values.
  rewrite decide_True by done. rewrite Hkeys.
  apply column_ints_Some in Hkeys.
  eexists. split; [done|]. simpl. split.
  - rewrite merge_sort_Permutation.
    rewrite snd_zip; [done|]. by rewrite (Forall2_length _ _ _ Hkeys).
  - apply StronglySorted_keyed.
    + rewrite merge_sort_Permutation. by apply zip_keyed.
    + apply StronglySorted_merge_sort; apply _.
Qed.

Lemma sort_values_missing df col :
  col ∉ columns df → sort_values df col = inl (KeyError col).
Proof. intros H. unfold sort_values. by rewrite decide_False. Qed.

(** The metric columns of collected records hold integers. *)
Lemma column_ints_metric m vms :
  column_ints (clave m) (recolectar_metricas <$> vms)
  = Some ((λ vm, getattr (origen m (summary vm)) (atributo m) 0) <$> vms).
Proof.
  induction vms as [|vm vms IH]; [done|].
  rewrite !fmap_cons. simpl. by rewrite recolectar_metricas_metric, IH.
Qed.

(** A frame built from no record has no column; built from at least
    one collected record it has the six columns. *)
Lemma columns_no_records : columns (pd_DataFrame []) = ∅.
Proof. reflexivity. Qed.

Lemma columns_metric m vm vms :
  clave m ∈ columns (pd_DataFrame (recolectar_metricas <$> vm :: vms)).
Proof.
  simpl. apply elem_of_union_l, elem_of_dom.
  rewrite recolectar_metricas_metric. eauto.
Qed.

(** The ranking of a metric over the records of at least one machine. *)
Lemma top10_collected (vms : list VirtualMachine) (m : metric) (w : World) :
  vms ≠ [] →
  ∃ tabla,
    top10 (pd_DataFrame (recolectar_metricas <$> vms)) (clave m) w
    = (w, inr tabla)
    ∧ (length (rows tabla) ≤ 10)%nat
    ∧ length (rows tabla) = (10 `min` length vms)%nat
    ∧ rows tabla ⊆+ recolectar_metricas <$> vms
    ∧ ((length vms < 10)%nat → rows tabla ≡ₚ recolectar_metricas <$> vms)
    ∧ StronglySorted (desc (clave m)) (rows tabla).
Proof.
  intros Hvms. destruct vms as [|vm vms]; [done|].
  destruct (sort_values_int (pd_DataFrame (recolectar_metricas <$> vm :: vms))
              (clave m) _ (columns_metric m vm vms) (column_ints_metric m _))
    as (sorted & Hsort & Hperm & Hsorted).
  exists (head 10 sorted). unfold top10, mbind, M_bind, lift.
  rewrite Hsort. split; [done|].
  change (rows (pd_DataFrame ?d)) with d in Hperm.
  assert (length (rows sorted) = length (vm :: vms)) as Hlen.
  { by rewrite Hperm, length_fmap. }
  change (rows (head 10 sorted)) with (take 10 (rows sorted)).
  split_and!.
  - rewrite length_take. lia.
  - rewrite length_take, Hlen. done.
  - rewrite <-Hperm. apply submseteq_take.
  - intros Hlt. rewrite take_ge by lia. done.
  - by apply StronglySorted_take.
Qed.

(** With no record at all the frame has no column to sort by. *)
Lemma top10_no_records col w :
  top10 (pd_DataFrame (recolectar_metricas <$> [])) col w
  = (w, inl (KeyError col)).
Proof.
  unfold top10, mbind, M_bind, lift.
  by rewrite sort_values_missing by set_solver.
Qed.

(** ** main *)

(** With at least one retained machine [main] returns; its locals are
    the filtered list, one record per retained machine and the five
    rankings of those records. *)
Lemma main_returns content w :
  filtrar_vms (get_all_vms content) ≠ [] →
  ∃ loc,
    main content w
    = (tras_print (length (filtrar_vms (get_all_vms content))) w, inr loc)
    ∧ vms_filtradas loc = filtrar_vms (get_all_vms content)
    ∧ metricas loc = recolectar_metricas <$> vms_filtradas loc
    ∧ ∀ m w', top10 (pd_DataFrame (metricas loc)) (clave m) w'
              = (w', inr (ranking m loc)).
Proof.
  intros Hne. set (vs := filtrar_vms (get_all_vms content)) in *.
  set (w1 := tras_print (length vs) w).
  assert (∀ m, ∃ t, ∀ w', top10 (pd_DataFrame (recolectar_metricas <$> vs))
                            (clave m) w' = (w', inr t)) as Htop.
  { intros m. destruct (top10_collected vs m w Hne) as (t & Ht & _).
    exists t. intros w'. unfold top10, mbind, M_bind, lift in Ht |- *.
    destruct (sort_values _ _); [discriminate|].
    unfold mret, M_ret in Ht |- *. congruence. }
  destruct (Htop CpuReady) as [t1 H1], (Htop RamAsignada) as [t2 H2],
    (Htop RamConsumida) as [t3 H3], (Htop NetUsage) as [t4 H4],
    (Htop Iops) as [t5 H5].
  simpl in H1, H2, H3, H4, H5.
  eexists. split.
  - unfold main. fold vs. unfold mbind at 1. unfold M_bind at 1.
    change (print _ w) with (w1, inr () : exn + unit).
    cbv zeta. cbv beta iota.
    unfold mbind, M_bind. rewrite H1, H2, H3, H4, H5. reflexivity.
  - simpl. split_and!; [done..|]. by intros [] w'.
Qed.

Example linea_encontradas_0 :
  linea_encontradas 0
  = "Se encontraron 0 VMs encendidas (sin vcls)" +:+ newline.
Proof. reflexivity. Qed.

(** C4, what the code does: when no machine passes the filter [main]
    prints the count 0 and then stops with [KeyError] at the first
    ranking, because the frame of an empty list has no column
    "cpu_ready".  No ranking table is produced and [main] does not
    return. *)
Theorem main_sin_vms (content : ServiceContent) (w : World) :
  filtrar_vms (get_all_vms content) = [] →
  main content w = (tras_print 0 w, inl (KeyError "cpu_ready")).
Proof.
  intros Hnone. unfold main. rewrite Hnone.
  unfold mbind at 1. unfold M_bind at 1.
  change (print _ w) with (tras_print 0 w, inr () : exn + unit).
  cbv zeta. cbv beta iota. unfold mbind at 1. unfold M_bind at 1.
  by rewrite top10_no_records.
Qed.

Lemma main_sin_vms_witness :
  filtrar_vms (get_all_vms {| vm_view := [vcls1; web02] |}) = []
  ∧ main {| vm_view := [vcls1; web02] |} (mundo [])
    = (tras_print 0 (mundo []), inl (KeyError "cpu_ready")).
Proof.
  split; [reflexivity|].
  apply (main_sin_vms {| vm_view := [vcls1; web02] |} (mundo [])).
  reflexivity.
Defined.

(** ** The worked example *)

Lemma desc_sorted_pair col (a b : dict) za zb t :
  a !! col = Some (PInt za) → b !! col = Some (PInt zb) → zb < za →
  t ≡ₚ [a; b] → StronglySorted (desc col) t → t = [a; b].
Proof.
  intros Ha Hb Hlt Hperm Hs. symmetry in Hperm.
  apply Permutation_length_2_inv in Hperm as [->| ->]; [done|].
  apply StronglySorted_inv in Hs as [_ Hs].
  apply Forall_cons in Hs as [(z1 & z2 & H1 & H2 & Hle) _].
  rewrite Hb in H1. rewrite Ha in H2. simplify_eq. lia.
Qed.

(** C5: on the inventory vCLS-1 (on), Web01 (on, 50), Web02 (off, 90),
    DB01 (on, 10) the filter keeps Web01 and DB01, in that order, and
    the CPU ranking is Web01 with 50 followed by DB01 with 10; any
    descending arrangement of the two records gives that table. *)
Theorem ejemplo_inventario (w : World) :
  filtrar_vms inventario_ejemplo = [web01; db01]
  ∧ (∃ loc,
       main {| vm_view := inventario_ejemplo |} w = (tras_print 2 w, inr loc)
       ∧ vms_filtradas loc = [web01; db01]
       ∧ rows (top_cpu loc)
         = [recolectar_metricas web01; recolectar_metricas db01]
       ∧ (λ r : dict, (r !! "name", r !! "cpu_ready")) <$> rows (top_cpu loc)
         = [(Some (PStr "Web01"), Some (PInt 50));
            (Some (PStr "DB01"), Some (PInt 10))])
  ∧ (∀ t, t ≡ₚ recolectar_metricas <$> [web01; db01] →
          StronglySorted (desc "cpu_ready") t →
          take 10 t = [recolectar_metricas web01; recolectar_metricas db01]).
Proof.
  split; [reflexivity|]. split.
  - eexists. split; [vm_compute; reflexivity|].
    split_and!; vm_compute; reflexivity.
  - intros t Hperm Hs.
    rewrite (desc_sorted_pair "cpu_ready" (recolectar_metricas web01)
               (recolectar_metricas db01) 50 10 t); done.
Qed.

(** ** Files, exit handlers and the report name *)

Lemma keeps_ret {A B} (part : World → B) (a : A) : keeps part (mret a).
Proof. by intros w. Qed.

Lemma keeps_bind {A B C} (part : World → C) (m : M A) (f : A → M B) :
  keeps part m → (∀ a, keeps part (f a)) → keeps part (m ≫= f).
Proof.
  intros Hm Hf w. unfold mbind, M_bind. specialize (Hm w).
  destruct (m w) as [w' [e|a]]; simpl in *; [done|].
  by rewrite Hf.
Qed.

Lemma keeps_lift {A B} (part : World → B) (r : exn + A) :
  keeps part (lift r).
Proof. by intros w. Qed.

Lemma keeps_files_write_stdout s : keeps files (write_stdout s).
Proof. by intros w. Qed.

Lemma keeps_handlers_write_stdout s : keeps atexit_handlers (write_stdout s).
Proof. by intros w. Qed.

Lemma keeps_files_print s : keeps files (print s).
Proof. by intros w. Qed.

Lemma keeps_handlers_print s : keeps atexit_handlers (print s).
Proof. by intros w. Qed.

Lemma keeps_files_read_line : keeps files read_line.
Proof. intros w. unfold read_line. by destruct (stdin w). Qed.

Lemma keeps_handlers_read_line : keeps atexit_handlers read_line.
Proof. intros w. unfold read_line. by destruct (stdin w). Qed.

Lemma keeps_files_atexit_register f : keeps files (atexit_register f).
Proof. by intros w. Qed.

Create HintDb keeps discriminated.
#[local] Hint Resolve keeps_ret keeps_lift keeps_files_write_stdout
  keeps_handlers_write_stdout keeps_files_print keeps_handlers_print
  keeps_files_read_line keeps_handlers_read_line
  keeps_files_atexit_register : keeps.

(** Walks down a chain of binds, closing each step from the hints. *)
Ltac keeps_steps :=
  repeat first
    [ solve [auto with keeps]
    | progress intros
    | apply keeps_bind ].

Lemma keeps_top10 {B} (part : World → B) df col : keeps part (top10 df col).
Proof. unfold top10. keeps_steps. Qed.

Lemma keeps_files_main content : keeps files (main content).
Proof.
  unfold main. cbv zeta. pose proof (keeps_top10 files). keeps_steps.
Qed.

Lemma keeps_handlers_main content : keeps atexit_handlers (main content).
Proof.
  unfold main. cbv zeta. pose proof (keeps_top10 atexit_handlers).
  keeps_steps.
Qed.

Lemma keeps_files_script sc : keeps files (script sc).
Proof.
  unfold script, input, getpass.
  pose proof keeps_files_main. keeps_steps.
Qed.

(** One prompt answered: the prompt is written, the line is consumed. *)
Lemma input_step {A} prompt (k : string → M A) l ls out hs fs :
  (input prompt ≫= k)
    {| stdin := l :: ls; stdout := out; atexit_handlers := hs; files := fs |}
  = k l {| stdin := ls; stdout := out ++ [prompt];
           atexit_handlers := hs; files := fs |}.
Proof. reflexivity. Qed.

Lemma getpass_step {A} (k : string → M A) l ls out hs fs :
  (getpass ≫= k)
    {| stdin := l :: ls; stdout := out; atexit_handlers := hs; files := fs |}
  = k l {| stdin := ls; stdout := out; atexit_handlers := hs; files := fs |}.
Proof. reflexivity. Qed.

(** Reading the four answers: the fourth one is bound to [REPORTE_HTML]
    and the rest of the script does not mention it. *)
Lemma script_after_prompts sc host user pwd reporte resto out hs fs :
  script sc (mundo_inicial host user pwd reporte resto out hs fs)
  = (si ← lift (sc host user pwd);
     _ ← atexit_register (Disconnect si);
     content ← lift (RetrieveContent si);
     main content)
      {| stdin := resto;
         stdout := ((out ++ ["vCenter/ESXi host: "]) ++ ["Usuario: "]) ++
           ["Nombre del archivo HTML para el reporte (ej: reporte_vmware.html): "];
         atexit_handlers := hs; files := fs |}.
Proof.
  unfold script, mundo_inicial.
  by rewrite !input_step, getpass_step, input_step.
Qed.

(** X10: the exit handlers after a run that got its four answers: when the
    session was opened, [Disconnect] for that session has been added,
    once, whatever happens afterwards; when opening it failed, nothing
    was added. *)
Lemma script_exit_handlers sc host user pwd reporte resto out hs fs :
  atexit_handlers
    (script sc (mundo_inicial host user pwd reporte resto out hs fs)).1
  = match sc host user pwd with
    | inr si => (hs ++ [Disconnect si])%list
    | inl _ => hs
    end.
Proof.
  rewrite script_after_prompts. unfold mbind at 1. unfold M_bind at 1.
  unfold lift at 1. destruct (sc host user pwd) as [e|si]; [done|].
  unfold mbind at 1. unfold M_bind at 1. unfold atexit_register at 1.
  cbv beta iota.
  match goal with
  | |- atexit_handlers (?m ?w).1 = _ =>
      assert (keeps atexit_handlers m) as Hk
  end.
  { pose proof keeps_handlers_main. keeps_steps. }
  by rewrite Hk.
Qed.

(** C10: two runs that differ only in the answer to the report-name
    prompt end in the same world (same standard output, same exit
    handlers, same files) with the same result (the same exception, or
    the same filtered list, records and five rankings); and no run
    changes a file. *)
Theorem reporte_html_sin_efecto
    (sc : string → string → string → exn + ServiceInstance)
    (host user pwd r1 r2 : string) (resto out : list string)
    (hs : list callback) (fs : gmap string string) :
  script sc (mundo_inicial host user pwd r1 resto out hs fs)
  = script sc (mundo_inicial host user pwd r2 resto out hs fs)
  ∧ (∀ w, files (script sc w).1 = files w).
Proof.
  split; [by rewrite !script_after_prompts|].
  apply keeps_files_script.
Qed.

(** * Further properties of the script *)

(** ** The filter, continued *)

Lemma vm_retenida_false vm :
  vm_retenida vm = false ↔ apagada_o_vcls vm.
Proof.
  unfold vm_retenida, apagada_o_vcls.
  rewrite andb_false_iff, negb_false_iff, String.eqb_neq, startswith_spec.
  done.
Qed.

Lemma filtrar_vms_cons vm vms :
  filtrar_vms (vm :: vms)
  = if vm_retenida vm then vm :: filtrar_vms vms else filtrar_vms vms.
Proof. reflexivity. Qed.

(** X1: filtering a concatenation is concatenating the filtered parts: the
    decision on a machine does not depend on the machines around it. *)
Theorem filtrar_vms_app (vms1 vms2 : list VirtualMachine) :
  filtrar_vms (vms1 ++ vms2)%list = (filtrar_vms vms1 ++ filtrar_vms vms2)%list.
Proof.
  induction vms1 as [|vm vms1 IH]; [done|].
  rewrite <-app_comm_cons, !filtrar_vms_cons, IH.
  by destruct (vm_retenida vm).
Qed.

Lemma filtrar_vms_nil vms :
  filtrar_vms vms = [] ↔ Forall apagada_o_vcls vms.
Proof.
  induction vms as [|vm vms IH]; [by split; [constructor|]|].
  rewrite filtrar_vms_cons, Forall_cons, <-vm_retenida_false, <-IH.
  destruct (vm_retenida vm).
  - split; [discriminate | intros [? _]; discriminate].
  - split; [by split | by intros [_ ?]].
Qed.

Lemma filtrar_vms_length vms :
  (length (filtrar_vms vms) ≤ length vms)%nat.
Proof.
  induction vms as [|vm vms IH]; [done|].
  rewrite filtrar_vms_cons. destruct (vm_retenida vm); simpl; lia.
Qed.

(** X2: the two extremes of the filter: nothing is kept exactly when every
    machine is off or a vCLS machine, everything is kept exactly when
    every machine is on and not a vCLS machine; and the output is never
    longer than the input. *)
Theorem filtrar_vms_extremes (vms : list VirtualMachine) :
  (filtrar_vms vms = [] ↔ Forall apagada_o_vcls vms)
  ∧ (filtrar_vms vms = vms ↔ Forall encendida_sin_vcls vms)
  ∧ (length (filtrar_vms vms) ≤ length vms)%nat.
Proof.
  split; [apply filtrar_vms_nil|]. split.
  - split.
    + intros Heq. rewrite <-Heq.
      eapply Forall_impl; [apply filtrar_vms_all_retained|].
      intros vm. by rewrite vm_retenida_spec.
    + intros Hall. apply filtrar_vms_fixed.
      eapply Forall_impl; [exact Hall|].
      intros vm. by rewrite vm_retenida_spec.
  - apply filtrar_vms_length.
Qed.

(** ** The collector, continued *)

(** X3: two machines give the same record exactly when they have the same
    name and each of the five reads, with its default of 0, gives the
    same number.  So the record does not depend on the power state or
    on any other attribute, and an attribute that is absent cannot be
    told from one that is 0. *)
Theorem recolectar_metricas_eq_iff (vm1 vm2 : VirtualMachine) :
  recolectar_metricas vm1 = recolectar_metricas vm2 ↔
    name vm1 = name vm2
    ∧ ∀ m : metric,
        getattr (origen m (summary vm1)) (atributo m) 0
        = getattr (origen m (summary vm2)) (atributo m) 0.
Proof.
  split.
  - intros Heq. split.
    + pose proof (f_equal (.!! "name") Heq) as H.
      rewrite !recolectar_metricas_name in H. congruence.
    + intros m. pose proof (f_equal (.!! clave m) Heq) as H.
      rewrite !recolectar_metricas_metric in H. congruence.
  - intros [Hname Hm]. unfold recolectar_metricas. cbv zeta.
    pose proof (Hm CpuReady) as H1. pose proof (Hm RamAsignada) as H2.
    pose proof (Hm RamConsumida) as H3. pose proof (Hm NetUsage) as H4.
    pose proof (Hm Iops) as H5. simpl in H1, H2, H3, H4, H5.
    by rewrite Hname, H1, H2, H3, H4, H5.
Qed.

(** ** The rankings, continued *)

Lemma sort_values_collected vms m :
  vms ≠ [] →
  ∃ sorted,
    sort_values (pd_DataFrame (recolectar_metricas <$> vms)) (clave m)
    = inr sorted
    ∧ rows sorted ≡ₚ recolectar_metricas <$> vms
    ∧ StronglySorted (desc (clave m)) (rows sorted).
Proof.
  intros Hvms. destruct vms as [|vm vms]; [done|].
  apply (sort_values_int (pd_DataFrame (recolectar_metricas <$> vm :: vms))
           (clave m) _ (columns_metric m vm vms) (column_ints_metric m _)).
Qed.

Lemma top10_sorted df col sorted w :
  sort_values df col = inr sorted →
  top10 df col w = (w, inr (head 10 sorted)).
Proof. intros H. unfold top10, mbind, M_bind, lift. by rewrite H. Qed.

(** X4: a ranking holds the top of the list: every record left out of the
    table has a value that is at most the value of every record in the
    table, and the first row has the largest value of all. *)
Theorem top10_is_top (vms : list VirtualMachine) (m : metric) (w : World) :
  vms ≠ [] →
  ∃ tabla resto,
    top10 (pd_DataFrame (recolectar_metricas <$> vms)) (clave m) w
    = (w, inr tabla)
    ∧ (rows tabla ++ resto)%list ≡ₚ recolectar_metricas <$> vms
    ∧ (∀ r r', r ∈ rows tabla → r' ∈ resto → desc (clave m) r r')
    ∧ (∃ r0, rows tabla !! 0%nat = Some r0
         ∧ ∀ r, r ∈ recolectar_metricas <$> vms → desc (clave m) r0 r).
Proof.
  intros Hvms.
  destruct (sort_values_collected vms m Hvms) as (s & Hs & Hperm & Hsorted).
  exists (head 10 s), (drop 10 (rows s)).
  split; [by apply top10_sorted|].
  change (rows (head 10 s)) with (take 10 (rows s)).
  split; [by rewrite take_drop|]. split.
  - intros r r' Hr Hr'. rewrite <-(take_drop 10 (rows s)) in Hsorted.
    by apply (StronglySorted_app_1_elem_of _ _ _ _ _ Hsorted).
  - destruct (rows s) as [|r0 rs] eqn:Hrows.
    { apply Permutation_nil_l in Hperm. destruct vms; [done|discriminate]. }
    exists r0. split; [done|]. intros r Hr. rewrite <-Hperm in Hr.
    apply StronglySorted_inv in Hsorted as [_ Hall].
    apply elem_of_cons in Hr as [->|Hr].
    + assert (r0 ∈ recolectar_metricas <$> vms) as Hin.
      { rewrite <-Hperm. by left. }
      apply list_elem_of_fmap in Hin as (vm & -> & _).
      exists (getattr (origen m (summary vm)) (atributo m) 0),
        (getattr (origen m (summary vm)) (atributo m) 0).
      rewrite recolectar_metricas_metric. split_and!; [done..|lia].
    + rewrite Forall_forall in Hall. by apply Hall.
Qed.

Lemma top10_is_top_witness :
  ∃ tabla resto,
    top10 (pd_DataFrame (recolectar_metricas <$> inventario_ejemplo))
      (clave CpuReady) (mundo [])
    = (mundo [], inr tabla)
    ∧ (rows tabla ++ resto)%list ≡ₚ recolectar_metricas <$> inventario_ejemplo
    ∧ (∀ r r', r ∈ rows tabla → r' ∈ resto → desc (clave CpuReady) r r')
    ∧ (∃ r0, rows tabla !! 0%nat = Some r0
         ∧ ∀ r, r ∈ recolectar_metricas <$> inventario_ejemplo →
                desc (clave CpuReady) r0 r).
Proof.
  apply (top10_is_top inventario_ejemplo CpuReady (mundo [])). discriminate.
Defined.

Global Instance cell_desc_antisymm : AntiSymm (=) cell_desc.
Proof.
  intros c1 c2 (z1 & z2 & -> & -> & H12) (y2 & y1 & H2 & H1 & H21).
  simplify_eq. f_equal. f_equal. lia.
Qed.




Lemma names_collected (vms : list VirtualMachine) :
  (.!! "name") <$> (recolectar_metricas <$> vms)
  = (λ n, Some (PStr n)) <$> (name <$> vms).
Proof.
  induction vms as [|vm vms IH]; [done|].
  rewrite !fmap_cons, IH. by rewrite recolectar_metricas_name.
Qed.

(** X6: when the machines have different names no ranking lists a name
    twice. *)
Theorem ranking_no_repeats (vms : list VirtualMachine) (m : metric) (w : World) :
  vms ≠ [] → NoDup (name <$> vms) →
  ∃ tabla,
    top10 (pd_DataFrame (recolectar_metricas <$> vms)) (clave m) w
    = (w, inr tabla)
    ∧ NoDup ((.!! "name") <$> rows tabla).
Proof.
  intros Hne Hnames.
  destruct (sort_values_collected vms m Hne) as (s & Hs & Hperm & _).
  exists (head 10 s). split; [by apply top10_sorted|].
  change (rows (head 10 s)) with (take 10 (rows s)).
  rewrite fmap_take.
  eapply sublist_NoDup; [|apply sublist_take].
  rewrite Hperm, names_collected.
  apply NoDup_fmap_2; [|done]. by intros n1 n2 [= ->].
Qed.

Lemma ranking_no_repeats_witness :
  ∃ tabla,
    top10 (pd_DataFrame (recolectar_metricas <$> inventario_ejemplo))
      (clave Iops) (mundo [])
    = (mundo [], inr tabla)
    ∧ NoDup ((.!! "name") <$> rows tabla).
Proof.
  apply (ranking_no_repeats inventario_ejemplo Iops (mundo [])).
  - discriminate.
  - apply (bool_decide_unpack _). vm_compute. exact I.
Defined.

(** ** main, continued *)

Lemma main_no_vms content w :
  filtrar_vms (get_all_vms content) = [] →
  main content w = (tras_print 0 w, inl (KeyError "cpu_ready")).
Proof.
  intros Hnone. unfold main. rewrite Hnone.
  unfold mbind at 1. unfold M_bind at 1.
  change (print _ w) with (tras_print 0 w, inr () : exn + unit).
  cbv zeta. cbv beta iota. unfold mbind at 1. unfold M_bind at 1.
  by rewrite top10_no_records.
Qed.

Lemma main_world content w :
  (main content w).1
  = tras_print (length (filtrar_vms (get_all_vms content))) w.
Proof.
  destruct (filtrar_vms (get_all_vms content)) as [|vm vms] eqn:Hf.
  - by rewrite main_no_vms.
  - destruct (main_returns content w) as (loc & Hmain & _).
    { by rewrite Hf. }
    by rewrite Hmain, Hf.
Qed.

(** C2, what the code does: with no retained machine [main] builds no
    ranking at all, it stops with [KeyError] at the first one; with at
    least one, [main] returns and each of its five rankings has at most
    10 of the collected records, all of them when there are fewer than
    10, in non-increasing order of its metric. *)
Theorem main_rankings (content : ServiceContent) (w : World) :
  (filtrar_vms (get_all_vms content) = [] →
   main content w = (tras_print 0 w, inl (KeyError "cpu_ready")))
  ∧ (filtrar_vms (get_all_vms content) ≠ [] →
     ∃ loc,
       main content w
       = (tras_print (length (filtrar_vms (get_all_vms content))) w, inr loc)
       ∧ metricas loc
         = recolectar_metricas <$> filtrar_vms (get_all_vms content)
       ∧ ∀ m : metric,
           (length (rows (ranking m loc)) ≤ 10)%nat
           ∧ length (rows (ranking m loc))
             = (10 `min` length (metricas loc))%nat
           ∧ rows (ranking m loc) ⊆+ metricas loc
           ∧ ((length (metricas loc) < 10)%nat →
              rows (ranking m loc) ≡ₚ metricas loc)
           ∧ StronglySorted (desc (clave m)) (rows (ranking m loc))).
Proof.
  split; [apply main_no_vms|]. intros Hne.
  destruct (main_returns content w Hne) as (loc & Hmain & Hf & Hm & Htop).
  exists loc. split; [done|]. split; [by rewrite Hm, Hf|]. intros m.
  destruct (top10_collected (vms_filtradas loc) m w)
    as (t & Ht & Hle & Hlen & Hsub & Hall & Hsorted).
  { by rewrite Hf. }
  rewrite <-Hm, Htop in Ht. injection Ht as <-.
  rewrite Hm, length_fmap. by split_and!.
Qed.

Lemma main_rankings_witness :
  ∃ loc,
    main {| vm_view := inventario_ejemplo |} (mundo [])
    = (tras_print
         (length (filtrar_vms (get_all_vms {| vm_view := inventario_ejemplo |})))
         (mundo []), inr loc)
    ∧ metricas loc
      = recolectar_metricas
          <$> filtrar_vms (get_all_vms {| vm_view := inventario_ejemplo |})
    ∧ ∀ m : metric,
        (length (rows (ranking m loc)) ≤ 10)%nat
        ∧ length (rows (ranking m loc))
          = (10 `min` length (metricas loc))%nat
        ∧ rows (ranking m loc) ⊆+ metricas loc
        ∧ ((length (metricas loc) < 10)%nat →
           rows (ranking m loc) ≡ₚ metricas loc)
        ∧ StronglySorted (desc (clave m)) (rows (ranking m loc)).
Proof.
  apply (proj2 (main_rankings {| vm_view := inventario_ejemplo |} (mundo []))).
  discriminate.
Defined.

(** C7: for every inventory, either [main] returns, and then its local
    [metricas] has one record per machine of its local [vms_filtradas]
    (the filter of the inventory), in the same order, the record at each
    position being the collector's record of the machine at that
    position and carrying that machine's name; or no machine is
    retained, there is nothing to collect, and [main] stops after the
    collection at the first ranking. *)
Theorem main_metricas (content : ServiceContent) (w : World) :
  (∃ loc,
     main content w
     = (tras_print (length (filtrar_vms (get_all_vms content))) w, inr loc)
     ∧ vms_filtradas loc = filtrar_vms (get_all_vms content)
     ∧ length (metricas loc) = length (vms_filtradas loc)
     ∧ ∀ i : nat,
         metricas loc !! i = recolectar_metricas <$> vms_filtradas loc !! i
         ∧ (metricas loc !! i ≫= (.!! "name"))
           = (PStr ∘ name) <$> vms_filtradas loc !! i)
  ∨ (filtrar_vms (get_all_vms content) = []
     ∧ recolectar_metricas <$> filtrar_vms (get_all_vms content) = []
     ∧ main content w = (tras_print 0 w, inl (KeyError "cpu_ready"))).
Proof.
  destruct (filtrar_vms (get_all_vms content)) as [|vm vms] eqn:Hf.
  - right. split_and!; [done..|]. by apply main_no_vms.
  - left. destruct (main_returns content w) as (loc & Hmain & Hfl & Hm & _).
    { by rewrite Hf. }
    rewrite Hf in Hmain, Hfl. exists loc. split; [done|]. split; [done|].
    rewrite Hm. split; [apply length_fmap|]. intros i.
    rewrite list_lookup_fmap. split; [done|].
    destruct (vms_filtradas loc !! i) as [v|]; simpl; [|done].
    apply recolectar_metricas_name.
Qed.

Lemma main_metricas_witness :
  ∃ loc,
    main {| vm_view := inventario_ejemplo |} (mundo [])
    = (tras_print
         (length (filtrar_vms (get_all_vms {| vm_view := inventario_ejemplo |})))
         (mundo []), inr loc)
    ∧ vms_filtradas loc
      = filtrar_vms (get_all_vms {| vm_view := inventario_ejemplo |})
    ∧ length (metricas loc) = length (vms_filtradas loc)
    ∧ ∀ i : nat,
        metricas loc !! i = recolectar_metricas <$> vms_filtradas loc !! i
        ∧ (metricas loc !! i ≫= (.!! "name"))
          = (PStr ∘ name) <$> vms_filtradas loc !! i.
Proof.
  destruct (main_metricas {| vm_view := inventario_ejemplo |} (mundo []))
    as [H|[Hnone _]]; [exact H|].
  vm_compute in Hnone. discriminate.
Defined.

(** X7: whatever the inventory, and whether it then returns or fails,
    [main] writes exactly one line, the count of retained machines
    (never more than the machines listed), and touches nothing else:
    it reads no input, registers no exit handler and changes no file. *)
Theorem main_prints_count (content : ServiceContent) (w : World) :
  stdout (main content w).1
  = (stdout w
     ++ [linea_encontradas (length (filtrar_vms (get_all_vms content)))])%list
  ∧ (length (filtrar_vms (get_all_vms content))
     ≤ length (get_all_vms content))%nat
  ∧ stdin (main content w).1 = stdin w
  ∧ atexit_handlers (main content w).1 = atexit_handlers w
  ∧ files (main content w).1 = files w.
Proof.
  rewrite main_world. split_and!; try done. apply filtrar_vms_length.
Qed.

(** X8: given the inventory the view listed, [main] returns exactly
    when at least one machine is retained. *)
Theorem main_returns_iff (content : ServiceContent) (w : World) :
  (∃ loc, (main content w).2 = inr loc)
  ↔ filtrar_vms (get_all_vms content) ≠ [].
Proof.
  destruct (filtrar_vms (get_all_vms content)) as [|vm vms] eqn:Hf.
  - rewrite main_no_vms by done. simpl.
    split; [intros [loc ?]; discriminate | done].
  - destruct (main_returns content w) as (loc & Hmain & _).
    { by rewrite Hf. }
    rewrite Hmain. simpl. split; [done | by exists loc].
Qed.

(** X9: end to end: when [main] returns, every row of every ranking is the
    record of a machine of the inventory that is powered on and whose
    lower-cased name does not start with "vcls". *)
Theorem rankings_only_retained
    (content : ServiceContent) (w w' : World) (loc : Locals) :
  main content w = (w', inr loc) →
  ∀ (m : metric) (r : dict),
    r ∈ rows (ranking m loc) →
    ∃ vm, vm ∈ get_all_vms content
          ∧ encendida_sin_vcls vm
          ∧ r = recolectar_metricas vm.
Proof.
  intros Hmain m r Hr.
  assert (filtrar_vms (get_all_vms content) ≠ []) as Hne.
  { intros Hnone. rewrite main_no_vms in Hmain by done. discriminate. }
  destruct (main_returns content w Hne) as (loc0 & Hmain0 & Hf & Hm & Htop).
  rewrite Hmain in Hmain0. injection Hmain0 as _ <-.
  destruct (top10_collected (vms_filtradas loc) m w) as (t & Ht & _ & _ & Hsub & _).
  { by rewrite Hf. }
  rewrite <-Hm, Htop in Ht. injection Ht as <-.
  apply (elem_of_submseteq _ _ _ Hr) in Hsub.
  apply list_elem_of_fmap in Hsub as (vm & -> & Hvm).
  rewrite Hf in Hvm. apply elem_of_filtrar_vms in Hvm as [Hin Hret].
  exists vm. split_and!; [done| |done]. by apply vm_retenida_spec.
Qed.

Lemma rankings_only_retained_witness :
  ∃ w' loc,
    main {| vm_view := inventario_ejemplo |} (mundo []) = (w', inr loc)
    ∧ ∀ (m : metric) (r : dict),
        r ∈ rows (ranking m loc) →
        ∃ vm, vm ∈ get_all_vms {| vm_view := inventario_ejemplo |}
              ∧ encendida_sin_vcls vm
              ∧ r = recolectar_metricas vm.
Proof.
  destruct (main_returns {| vm_view := inventario_ejemplo |} (mundo []))
    as (loc & Hmain & _); [discriminate|].
  eexists _, loc. split; [exact Hmain|].
  exact (rankings_only_retained _ _ _ _ Hmain).
Defined.

(** ** The script, continued *)

(** A run that got its four answers, stage by stage. *)
Lemma script_run sc host user pwd reporte resto out hs fs :
  script sc (mundo_inicial host user pwd reporte resto out hs fs)
  = match sc host user pwd with
    | inl e => (tras_prompts resto out hs fs, inl e)
    | inr si =>
        match RetrieveContent si with
        | inl e => (tras_prompts resto out (hs ++ [Disconnect si]) fs, inl e)
        | inr content =>
            main content (tras_prompts resto out (hs ++ [Disconnect si]) fs)
        end
    end.
Proof.
  rewrite script_after_prompts. unfold tras_prompts, prompts.
  rewrite <-!(assoc_L (++) out). simpl.
  unfold mbind at 1. unfold M_bind at 1. unfold lift at 1.
  destruct (sc host user pwd) as [e|si]; [done|].
  unfold mbind at 1. unfold M_bind at 1. unfold atexit_register at 1.
  cbv beta iota. unfold mbind at 1. unfold M_bind at 1. unfold lift at 1.
  by destruct (RetrieveContent si).
Qed.

(** X11: with fewer than four lines to read the script stops with
    [EOFError] at a prompt: the endpoint is never consulted (any two
    endpoints give the same run) and no exit handler is registered. *)
Theorem script_short_input
    (sc sc' : string → string → string → exn + ServiceInstance) (w : World) :
  (length (stdin w) < 4)%nat →
  (script sc w).2 = inl EOFError
  ∧ atexit_handlers (script sc w).1 = atexit_handlers w
  ∧ script sc' w = script sc w.
Proof.
  destruct w as [entrada out hs fs]. simpl. intros Hlen.
  destruct entrada as [|l1 [|l2 [|l3 [|l4 resto]]]]; simpl in Hlen;
    [by split_and!..|lia].
Qed.

Lemma script_short_input_witness :
  (script endpoint_ejemplo (mundo ["vcenter.local"; "admin"])).2
  = inl EOFError
  ∧ atexit_handlers (script endpoint_ejemplo (mundo ["vcenter.local"; "admin"])).1
    = atexit_handlers (mundo ["vcenter.local"; "admin"])
  ∧ script (λ _ _ _, inr si_ejemplo) (mundo ["vcenter.local"; "admin"])
    = script endpoint_ejemplo (mundo ["vcenter.local"; "admin"]).
Proof.
  apply (script_short_input endpoint_ejemplo (λ _ _ _, inr si_ejemplo)
           (mundo ["vcenter.local"; "admin"])).
  simpl. lia.
Defined.

(** X12: the endpoint is consulted with the first three answers, as host,
    user and password in that order, and with nothing else: two
    endpoints that answer alike for these three give the same run. *)
Theorem script_endpoint_once
    (sc1 sc2 : string → string → string → exn + ServiceInstance)
    (host user pwd reporte : string) (resto out : list string)
    (hs : list callback) (fs : gmap string string) :
  sc1 host user pwd = sc2 host user pwd →
  script sc1 (mundo_inicial host user pwd reporte resto out hs fs)
  = script sc2 (mundo_inicial host user pwd reporte resto out hs fs).
Proof. intros Heq. by rewrite !script_run, Heq. Qed.

Lemma script_endpoint_once_witness :
  script endpoint_ejemplo
    (mundo_inicial "vcenter.local" "admin" "secreto" "r.html" [] [] [] ∅)
  = script (λ _ _ _, inr si_ejemplo)
      (mundo_inicial "vcenter.local" "admin" "secreto" "r.html" [] [] [] ∅).
Proof.
  apply (script_endpoint_once endpoint_ejemplo (λ _ _ _, inr si_ejemplo)).
  reflexivity.
Defined.

(** X13: the script catches nothing: an exception raised by
    [SmartConnect], or by [RetrieveContent] once connected, is the
    result of the run, unchanged. *)
Theorem script_propagates
    (sc : string → string → string → exn + ServiceInstance)
    (host user pwd reporte : string) (resto out : list string)
    (hs : list callback) (fs : gmap string string) (e : exn) :
  (sc host user pwd = inl e →
   (script sc (mundo_inicial host user pwd reporte resto out hs fs)).2
   = inl e)
  ∧ (∀ si, sc host user pwd = inr si → RetrieveContent si = inl e →
     (script sc (mundo_inicial host user pwd reporte resto out hs fs)).2
     = inl e).
Proof.
  rewrite script_run. split.
  - by intros ->.
  - by intros si -> ->.
Qed.

Lemma script_propagates_witness :
  (script endpoint_ejemplo
     (mundo_inicial "vcenter.local" "admin" "clave" "r.html" [] [] [] ∅)).2
  = inl (VimFault "login").
Proof.
  apply (proj1 (script_propagates endpoint_ejemplo "vcenter.local" "admin"
                  "clave" "r.html" [] [] [] ∅ (VimFault "login"))).
  reflexivity.
Defined.

(** X14: what is typed at the prompts reaches the run only through the
    reply of the endpoint: two runs whose four answers differ, but to
    which the endpoint replies alike, are the same run, standard output
    included.  So nothing that is typed, the password included, is
    written back. *)
Theorem script_answers_only_through_endpoint
    (sc : string → string → string → exn + ServiceInstance)
    (host user pwd reporte host' user' pwd' reporte' : string)
    (resto out : list string) (hs : list callback) (fs : gmap string string) :
  sc host user pwd = sc host' user' pwd' →
  script sc (mundo_inicial host user pwd reporte resto out hs fs)
  = script sc (mundo_inicial host' user' pwd' reporte' resto out hs fs).
Proof. intros Heq. by rewrite !script_run, Heq. Qed.

Lemma script_answers_only_through_endpoint_witness :
  script endpoint_ejemplo
    (mundo_inicial "vcenter.local" "admin" "clave" "r.html" [] [] [] ∅)
  = script endpoint_ejemplo
      (mundo_inicial "10.0.0.7" "root" "otra" "informe.html" [] [] [] ∅).
Proof.
  apply (script_answers_only_through_endpoint endpoint_ejemplo).
  reflexivity.
Defined.

(** X15: where the results of a run that returns come from: four lines were
    read, the endpoint accepted the first three as host, user and
    password, the inventory was obtained, and the locals are the filter
    of that inventory (not empty) and its records; the lines after the
    fourth are left unread and [Disconnect] for the session is the one
    handler added. *)
Theorem script_returns
    (sc : string → string → string → exn + ServiceInstance)
    (w w' : World) (loc : Locals) :
  script sc w = (w', inr loc) →
  ∃ host user pwd reporte resto si content,
    stdin w = host :: user :: pwd :: reporte :: resto
    ∧ sc host user pwd = inr si
    ∧ RetrieveContent si = inr content
    ∧ vms_filtradas loc = filtrar_vms (get_all_vms content)
    ∧ vms_filtradas loc ≠ []
    ∧ metricas loc = recolectar_metricas <$> vms_filtradas loc
    ∧ stdin w' = resto
    ∧ atexit_handlers w' = (atexit_handlers w ++ [Disconnect si])%list.
Proof.
  destruct w as [entrada out hs fs].
  destruct entrada as [|l1 [|l2 [|l3 [|l4 resto]]]]; [discriminate..|].
  intros Hrun.
  change {| stdin := l1 :: l2 :: l3 :: l4 :: resto; stdout := out;
            atexit_handlers := hs; files := fs |}
    with (mundo_inicial l1 l2 l3 l4 resto out hs fs) in Hrun.
  rewrite script_run in Hrun.
  destruct (sc l1 l2 l3) as [e1|si] eqn:Hsc; [discriminate|].
  destruct (RetrieveContent si) as [e2|content] eqn:Hcontent; [discriminate|].
  exists l1, l2, l3, l4, resto, si, content.
  assert (filtrar_vms (get_all_vms content) ≠ []) as Hne.
  { intros Hnone. rewrite main_no_vms in Hrun by done. discriminate. }
  destruct (main_returns content
              (tras_prompts resto out (hs ++ [Disconnect si]) fs) Hne)
    as (loc0 & Hmain & Hf & Hm & _).
  rewrite Hmain in Hrun. injection Hrun as <- <-.
  split_and!; try done. by rewrite Hf.
Qed.

Lemma script_returns_witness :
  ∃ w' loc,
    script endpoint_ejemplo
      (mundo ["vcenter.local"; "admin"; "secreto"; "r.html"])
    = (w', inr loc)
    ∧ ∃ host user pwd reporte resto si content,
        stdin (mundo ["vcenter.local"; "admin"; "secreto"; "r.html"])
        = host :: user :: pwd :: reporte :: resto
        ∧ endpoint_ejemplo host user pwd = inr si
        ∧ RetrieveContent si = inr content
        ∧ vms_filtradas loc = filtrar_vms (get_all_vms content)
        ∧ vms_filtradas loc ≠ []
        ∧ metricas loc = recolectar_metricas <$> vms_filtradas loc
        ∧ stdin w' = resto
        ∧ atexit_handlers w'
          = (atexit_handlers
               (mundo ["vcenter.local"; "admin"; "secreto"; "r.html"])
             ++ [Disconnect si])%list.
Proof.
  destruct (script endpoint_ejemplo
              (mundo ["vcenter.local"; "admin"; "secreto"; "r.html"]))
    as [w' [e|loc]] eqn:Hrun.
  - exfalso. vm_compute in Hrun. discriminate.
  - exists w', loc. split; [reflexivity|].
    exact (script_returns _ _ _ _ Hrun).
Defined.
